(** * ruuvi-sensor-protocol: the version-3 decoder, the conversion into
    the normalized record and the Kelvin/Celsius conversion trait.

    Shallow embedding of [src/lib.rs] and [src/sensordata/v3.rs].
    Rust integers are [Z] with their ranges written out, bytes are
    [Init.Byte.byte], a Rust [Result] is [result], and a computation that may
    panic ([unimplemented!()], an out-of-range slice index, an arithmetic
    overflow in a build with overflow checks) returns an [Outcome]. *)

From Stdlib Require Import ZArith List Bool Lia Strings.Byte.
Import ListNotations.
Open Scope Z_scope.

(** ** Panicking computations *)

Inductive Outcome (A : Type) : Type :=
| Ret (a : A)
| Panic.
Arguments Ret {A} a.
Arguments Panic {A}.

Definition bind {A B} (m : Outcome A) (k : A -> Outcome B) : Outcome B :=
  match m with
  | Ret a => k a
  | Panic => Panic
  end.

Notation "x <- m ;; k" := (bind m (fun x => k))
  (at level 61, m at next level, right associativity).

(** Rust's [Result<T, E>]. *)
Inductive result (T E : Type) : Type :=
| Ok (t : T)
| Err (e : E).
Arguments Ok {T E} t.
Arguments Err {T E} e.

(** ** Machine integers *)

Definition u8_of (b : Byte.byte) : Z := Z.of_N (Byte.to_N b).

(** [x as i16] for a value [x] of type [u16]. *)
Definition u16_as_i16 (x : Z) : Z :=
  if x >=? 2 ^ 15 then x - 2 ^ 16 else x.

(** [x as i32] for a value [x] of type [u32]. *)
Definition u32_as_i32 (x : Z) : Z :=
  if x >=? 2 ^ 31 then x - 2 ^ 32 else x.

Definition in_i32 (x : Z) : bool := (- 2 ^ 31 <=? x) && (x <? 2 ^ 31).

(** Wrap an integer into the [i32] range. *)
Definition wrap_i32 (x : Z) : Z := (x + 2 ^ 31) mod 2 ^ 32 - 2 ^ 31.

(** [a - b] on [i32]: with overflow checks (debug builds) an overflow panics,
    without them (release builds) it wraps. *)
Definition i32_sub (overflow_checks : bool) (a b : Z) : Outcome Z :=
  let r := a - b in
  if in_i32 r then Ret r
  else if overflow_checks then Panic else Ret (wrap_i32 r).

(** Slice indexing [value[i]]: panics out of range. *)
Definition index (value : list Byte.byte) (i : nat) : Outcome Byte.byte :=
  match nth_error value i with
  | Some b => Ret b
  | None => Panic
  end.

(** ** The error type and the normalized record (module [sensordata]) *)

(** Modelled from the spec: the [ParseError] enum of the missing module
    [sensordata] / [formats] (section 7: three error kinds). *)
Inductive ParseError : Type :=
| UnknownManufacturerId (id : Z)
| UnsupportedFormatVersion (version : Z)
| InvalidValueLength (version : Z) (length : nat) (expected : nat).

(** Modelled from the spec: [AccelerationVector(i16, i16, i16)] of the missing
    module [sensordata]. *)
Inductive AccelerationVector : Type :=
| AccelerationVector3 (x y z : Z).

(** Modelled from the spec: the normalized record [SensorData] (exported as
    [SensorValues]) of the missing module [sensordata]; every quantity is
    optional. *)
Record SensorData : Type := {
  humidity : option Z;
  temperature : option Z;
  pressure : option Z;
  acceleration : option AccelerationVector;
  battery_potential : option Z;
}.

(** ** [src/sensordata/v3.rs] *)

Module V3.

Inductive AccelerationVectorV3 : Type :=
| AccelerationVectorV3_ (x y z : Z).

Record SensorDataV3 : Type := {
  humidity : Z;
  temperature : Z;
  pressure : Z;
  acceleration : AccelerationVectorV3;
  battery_potential : Z;
}.

(** [((b1 as u16) << 8) | b2 as u16] *)
Definition u16_from_two_bytes (b1 b2 : Byte.byte) : Z :=
  Z.lor (Z.land (Z.shiftl (u8_of b1) 8) (2 ^ 16 - 1)) (u8_of b2).

(** [u16_from_two_bytes(b1, b2) as i16] *)
Definition i16_from_two_bytes (b1 b2 : Byte.byte) : Z :=
  u16_as_i16 (u16_from_two_bytes b1 b2).

Definition from_manufacturer_specific_data (value : list Byte.byte)
  : Outcome (result SensorDataV3 ParseError) :=
  if Nat.eqb (length value) 14 then
    h <- index value 1 ;;
    t1 <- index value 2 ;; t2 <- index value 3 ;;
    p1 <- index value 4 ;; p2 <- index value 5 ;;
    x1 <- index value 6 ;; x2 <- index value 7 ;;
    y1 <- index value 8 ;; y2 <- index value 9 ;;
    z1 <- index value 10 ;; z2 <- index value 11 ;;
    b1 <- index value 12 ;; b2 <- index value 13 ;;
    Ret (Ok {| humidity := u8_of h;
               temperature := u16_from_two_bytes t1 t2;
               pressure := u16_from_two_bytes p1 p2;
               acceleration := AccelerationVectorV3_
                                 (i16_from_two_bytes x1 x2)
                                 (i16_from_two_bytes y1 y2)
                                 (i16_from_two_bytes z1 z2);
               battery_potential := u16_from_two_bytes b1 b2 |})
  else
    Ret (Err (InvalidValueLength 3 (length value) 14)).

(** [impl Into<SensorData> for SensorDataV3]: the body is [unimplemented!()]. *)
Definition into (_ : SensorDataV3) : Outcome SensorData := Panic.

End V3.

(** ** [src/lib.rs]: the [Temperature] trait *)

(** [pub trait Temperature]: the required method. *)
Class Temperature (A : Type) : Type := {
  temperature_as_millikelvins : A -> option Z
}.

(** The trait's associated constant, with its default value [273_1500]. *)
Definition ZERO_CELSIUS_IN_MILLIKELVINS : Z := 2731500.

(** The provided method
    [self.temperature_as_millikelvins().map(|t| t as i32 - ZERO as i32)].
    [overflow_checks] is the build's overflow-check setting. *)
Definition temperature_as_millicelsius {A : Type} `{Temperature A}
    (overflow_checks : bool) (self : A) : Outcome (option Z) :=
  match temperature_as_millikelvins self with
  | None => Ret None
  | Some t =>
      r <- i32_sub overflow_checks (u32_as_i32 t)
             (u32_as_i32 ZERO_CELSIUS_IN_MILLIKELVINS) ;;
      Ret (Some r)
  end.

(** The test structure [Value] of [mod tests] in [src/lib.rs]. *)
Record Value : Type := { value_temperature : option Z }.

#[export] Instance Temperature_Value : Temperature Value := {
  temperature_as_millikelvins := value_temperature
}.

(** ** The dispatcher [SensorValues::from_manufacturer_specific_data] *)

Module SensorValues.

(** The beacon vendor's registered manufacturer id. *)
Definition MANUFACTURER_ID : Z := 0x0499.

Section Dispatcher.

(** The spec leaves open which format version an empty payload's length
    error names; every statement below holds for any choice. *)
Variable empty_payload_version : Z.

(** Modelled from the spec: [SensorValues::from_manufacturer_specific_data]
    of the missing module [formats] (section 4.1). A wrong manufacturer id is
    rejected first; an empty payload is a length error with expected minimum
    1 (the version tag); tag 3 hands the whole payload to the version-3
    decoder and converts its record with [V3.into]; any other tag is
    unsupported. *)
Definition from_manufacturer_specific_data (id : Z) (value : list Byte.byte)
  : Outcome (result SensorData ParseError) :=
  if negb (id =? MANUFACTURER_ID) then Ret (Err (UnknownManufacturerId id))
  else
    match value with
    | [] => Ret (Err (InvalidValueLength empty_payload_version 0 1))
    | tag :: _ =>
        if u8_of tag =? 3 then
          r <- V3.from_manufacturer_specific_data value ;;
          match r with
          | Ok d => s <- V3.into d ;; Ret (Ok s)
          | Err e => Ret (Err e)
          end
        else Ret (Err (UnsupportedFormatVersion (u8_of tag)))
    end.

End Dispatcher.

End SensorValues.

(** ** The conversion as the spec describes it (section 4.2) *)

(** Written from the spec's words, to be compared with [V3.into]:
    humidity times 500, temperature [sign * (int * 1000 + frac * 10)] from the
    high byte (bit 7 sign, bits 0-6 integer degrees) and the low byte
    (hundredths), pressure plus 50000, acceleration and battery unchanged. *)
Definition spec_into (d : V3.SensorDataV3) : SensorData :=
  let t := V3.temperature d in
  let hi := Z.shiftr t 8 in
  let lo := Z.land t 255 in
  let sign := if Z.testbit hi 7 then -1 else 1 in
  let int_part := Z.land hi 127 in
  let acc := match V3.acceleration d with
             | V3.AccelerationVectorV3_ x y z => AccelerationVector3 x y z
             end in
  {| humidity := Some (V3.humidity d * 500);
     temperature := Some (sign * (int_part * 1000 + lo * 10));
     pressure := Some (V3.pressure d + 50000);
     acceleration := Some acc;
     battery_potential := Some (V3.battery_potential d) |}.

(** The worked example of the crate documentation and of the tests. *)
Definition example_payload : list Byte.byte :=
  [x03; x17; x01; x45; x35; x58; x03; xe8; x04; xe7; x05; xe6; x08; x86].

Definition example_v3 : V3.SensorDataV3 :=
  {| V3.humidity := 0x17; V3.temperature := 0x0145; V3.pressure := 0x3558;
     V3.acceleration := V3.AccelerationVectorV3_ 1000 1255 1510;
     V3.battery_potential := 0x0886 |}.

(** The record the documentation example and the test
    [parse_version_3_into_generic_structure] expect. *)
Definition example_expected : SensorData :=
  {| humidity := Some 115000; temperature := Some 1690;
     pressure := Some 63656;
     acceleration := Some (AccelerationVector3 1000 1255 1510);
     battery_potential := Some 2182 |}.

(** ** Unit tests of the embedding (the repository's own tests) *)

Example parse_version_3_data_with_invalid_length :
  V3.from_manufacturer_specific_data [x03; x67; x16; x32; x3c; x46]
  = Ret (Err (InvalidValueLength 3 6 14)).
Proof. reflexivity. Qed.

Example parse_valid_version_3_data :
  V3.from_manufacturer_specific_data example_payload = Ret (Ok example_v3).
Proof. reflexivity. Qed.

Example zero_kelvins : forall b,
  temperature_as_millicelsius b {| value_temperature := Some 0 |}
  = Ret (Some (-2731500)).
Proof. destruct b; reflexivity. Qed.

Example sub_zero_celsius_2 : forall b,
  temperature_as_millicelsius b {| value_temperature := Some 1949240 |}
  = Ret (Some (-782260)).
Proof. destruct b; reflexivity. Qed.

(** ** Helper lemmas *)

Lemma in_i32_sub_zero (t : Z) :
  0 <= t <= 2 ^ 31 - 1 -> in_i32 (t - 2731500) = true.
Proof.
  intros Ht. unfold in_i32. apply andb_true_intro; split; lia.
Qed.

Lemma u32_as_i32_small (t : Z) : 0 <= t <= 2 ^ 31 - 1 -> u32_as_i32 t = t.
Proof.
  intros Ht. unfold u32_as_i32.
  destruct (t >=? 2 ^ 31) eqn:E; [lia | reflexivity].
Qed.

(** Absence propagates for every implementer and every build. *)
Lemma temperature_absent {A : Type} `{Temperature A} (b : bool) (x : A) :
  temperature_as_millikelvins x = None ->
  temperature_as_millicelsius b x = Ret None.
Proof. intros Hx. unfold temperature_as_millicelsius. rewrite Hx. reflexivity. Qed.

(** Without overflow checks (release builds) a present reading always gives
    a present, wrapped result. *)
Lemma temperature_present_release {A : Type} `{Temperature A} (x : A) (t : Z) :
  temperature_as_millikelvins x = Some t ->
  exists r, temperature_as_millicelsius false x = Ret (Some r).
Proof.
  intros Hx. unfold temperature_as_millicelsius. rewrite Hx.
  unfold i32_sub. destruct (in_i32 _); eexists; reflexivity.
Qed.

(** ** Claims *)

(** C1: the top-level decode of the documented worked example (id 0x0499,
    payload 03 17 01 45 35 58 03 E8 04 E7 05 E6 08 86) does not return the
    documented record: the version-3 decoder succeeds, and the conversion
    [V3.into] then panics. *)
Theorem C1_worked_example_panics (ev : Z) :
  V3.from_manufacturer_specific_data example_payload = Ret (Ok example_v3) /\
  SensorValues.from_manufacturer_specific_data ev 0x0499 example_payload
  = Panic /\
  SensorValues.from_manufacturer_specific_data ev 0x0499 example_payload
  <> Ret (Ok example_expected).
Proof.
  split; [reflexivity|]. split; [reflexivity|]. cbv. discriminate.
Qed.

(** C2: the conversion of the documented version-3 record panics, where the
    spec's formulas would give a record; note that the spec's formulas give
    humidity 11500 there while the repository's test expects 115000. *)
Theorem C2_into_panics_at_example :
  V3.into example_v3 = Panic /\
  spec_into example_v3 =
  {| humidity := Some 11500; temperature := Some 1690;
     pressure := Some 63656;
     acceleration := Some (AccelerationVector3 1000 1255 1510);
     battery_potential := Some 2182 |}.
Proof. split; reflexivity. Qed.

(** For every implementer and every build, a present reading [t] with
    [t <= 2^31 - 1] gives [Some (t - 2731500)]: the default constant is
    subtracted as it stands. *)
Lemma temperature_subtracts_default_constant {A : Type} `{Temperature A}
    (b : bool) (x : A) (t : Z) :
  temperature_as_millikelvins x = Some t ->
  0 <= t <= 2 ^ 31 - 1 ->
  temperature_as_millicelsius b x = Ret (Some (t - 2731500)).
Proof.
  intros Hx Ht.
  unfold temperature_as_millicelsius. rewrite Hx. cbn [bind].
  rewrite (u32_as_i32_small t Ht).
  unfold i32_sub, ZERO_CELSIUS_IN_MILLIKELVINS.
  rewrite (u32_as_i32_small 2731500 ltac:(lia)).
  rewrite (in_i32_sub_zero t Ht). reflexivity.
Qed.

(** C3: the default constant [ZERO_CELSIUS_IN_MILLIKELVINS] is [273_1500],
    ten times 0 degrees Celsius in milli-Kelvin (273150). So, in every build,
    milli-Kelvin 0 gives -2731500 instead of -273150, and milli-Kelvin
    273150 gives -2458350 instead of 0. *)
Theorem C3_zero_celsius_constant_off_by_ten (b : bool) :
  temperature_as_millicelsius b {| value_temperature := Some 0 |}
  = Ret (Some (-2731500)) /\
  temperature_as_millicelsius b {| value_temperature := Some 0 |}
  <> Ret (Some (-273150)) /\
  temperature_as_millicelsius b {| value_temperature := Some 273150 |}
  = Ret (Some (-2458350)) /\
  temperature_as_millicelsius b {| value_temperature := Some 273150 |}
  <> Ret (Some 0).
Proof.
  rewrite (@temperature_subtracts_default_constant Value Temperature_Value b
             {| value_temperature := Some 0 |} 0 ltac:(reflexivity)) by lia.
  rewrite (@temperature_subtracts_default_constant Value Temperature_Value b
             {| value_temperature := Some 273150 |} 273150 ltac:(reflexivity)) by lia.
  repeat split; try (intros E; injection E as E; lia); do 2 f_equal; lia.
Qed.

(** C4: the version-3 decoder fails exactly on payloads whose length is not
    14, with [InvalidValueLength {version: 3, length, expected: 14}] and no
    field read; every 14-byte payload decodes to [Ok]. *)
Theorem C4_v3_length_contract (value : list Byte.byte) :
  (length value <> 14%nat /\
   V3.from_manufacturer_specific_data value
   = Ret (Err (InvalidValueLength 3 (length value) 14))) \/
  (length value = 14%nat /\
   exists d, V3.from_manufacturer_specific_data value = Ret (Ok d)).
Proof.
  destruct (Nat.eqb (length value) 14) eqn:E.
  - right. apply Nat.eqb_eq in E. split; [exact E|].
    do 14 (destruct value as [|? value]; [discriminate E|]).
    destruct value; [|discriminate E].
    eexists. reflexivity.
  - left. apply Nat.eqb_neq in E. split; [exact E|].
    unfold V3.from_manufacturer_specific_data.
    apply Nat.eqb_neq in E. rewrite E. reflexivity.
Qed.

(** C5: the conversion of any version-3 record into the normalized record
    panics ([unimplemented!()]); it yields no record. *)
Theorem C5_into_always_panics (d : V3.SensorDataV3) :
  V3.into d = Panic /\ forall s, V3.into d <> Ret s.
Proof. split; [reflexivity | intros s; discriminate]. Qed.

(** C6: with the correct manufacturer id, a payload whose first byte is a
    tag other than the supported 3 is rejected with
    [UnsupportedFormatVersion(tag)]. *)
Theorem C6_unsupported_version (ev : Z) (tag : Byte.byte)
    (rest : list Byte.byte) :
  u8_of tag <> 3 ->
  SensorValues.from_manufacturer_specific_data ev 0x0499 (tag :: rest)
  = Ret (Err (UnsupportedFormatVersion (u8_of tag))).
Proof.
  intros Htag. unfold SensorValues.from_manufacturer_specific_data.
  cbn [negb SensorValues.MANUFACTURER_ID Z.eqb].
  replace (u8_of tag =? 3) with false by (symmetry; apply Z.eqb_neq; exact Htag).
  reflexivity.
Qed.

Lemma C6_witness :
  u8_of x07 <> 3 /\
  SensorValues.from_manufacturer_specific_data 0 0x0499
    [x07; x17; x01; x45; x35; x58; x03; xe8; x04; xe7; x05; xe6; x08; x86]
  = Ret (Err (UnsupportedFormatVersion 7)).
Proof.
  split; [vm_compute; discriminate|].
  apply (C6_unsupported_version 0 x07). vm_compute. discriminate.
Defined.

(** C7: any manufacturer id other than 0x0499 is rejected with
    [UnknownManufacturerId(id)] whatever the payload. *)
Theorem C7_unknown_manufacturer (ev id : Z) (value : list Byte.byte) :
  id <> 0x0499 ->
  SensorValues.from_manufacturer_specific_data ev id value
  = Ret (Err (UnknownManufacturerId id)).
Proof.
  intros Hid. unfold SensorValues.from_manufacturer_specific_data.
  replace (id =? SensorValues.MANUFACTURER_ID) with false
    by (symmetry; apply Z.eqb_neq; exact Hid).
  reflexivity.
Qed.

Lemma C7_witness :
  0x0059 <> 0x0499 /\
  SensorValues.from_manufacturer_specific_data 0 0x0059 example_payload
  = Ret (Err (UnknownManufacturerId 0x0059)).
Proof. split; [lia | apply C7_unknown_manufacturer; lia]. Defined.

(** C8: with the correct manufacturer id an empty payload is an
    invalid-length error of length 0 whose expected length is the minimum 1
    (the version tag); no version tag is read. *)
Theorem C8_empty_payload (ev : Z) :
  SensorValues.from_manufacturer_specific_data ev 0x0499 []
  = Ret (Err (InvalidValueLength ev 0 1)).
Proof. reflexivity. Qed.

(** C10: decoding is a function of the manufacturer id and the payload
    alone: two runs on the same input give the same outcome. *)
Theorem C10_decode_deterministic (ev id : Z) (value : list Byte.byte)
    (r1 r2 : Outcome (result SensorData ParseError)) :
  SensorValues.from_manufacturer_specific_data ev id value = r1 ->
  SensorValues.from_manufacturer_specific_data ev id value = r2 ->
  r1 = r2.
Proof. intros H1 H2. rewrite <- H1, <- H2. reflexivity. Qed.

Lemma C10_witness :
  SensorValues.from_manufacturer_specific_data 0 0x0499 [x07]
  = Ret (Err (UnsupportedFormatVersion 7)) /\
  Ret (Err (UnsupportedFormatVersion 7))
  = (Ret (Err (UnsupportedFormatVersion 7))
     : Outcome (result SensorData ParseError)).
Proof.
  split; [reflexivity|].
  apply (C10_decode_deterministic 0 0x0499 [x07]); reflexivity.
Defined.

(** C9: absence propagates, but a present reading need not give a present
    result: with overflow checks on (debug builds) the reading 2^31 panics in
    the [i32] subtraction. *)
Theorem C9_present_reading_panics :
  temperature_as_millicelsius true {| value_temperature := None |}
  = Ret None /\
  temperature_as_millicelsius true {| value_temperature := Some (2 ^ 31) |}
  = Panic.
Proof. split; reflexivity. Qed.

(** ** Further properties of the source *)

Lemma u8_of_range (b : Byte.byte) : 0 <= u8_of b <= 255.
Proof. unfold u8_of. pose proof (Byte.to_N_bounded b). lia. Qed.

Lemma u8_of_inj (a b : Byte.byte) : u8_of a = u8_of b -> a = b.
Proof.
  unfold u8_of. intros Hab. apply N2Z.inj in Hab.
  pose proof (Byte.of_to_N a) as Ha. pose proof (Byte.of_to_N b) as Hb.
  rewrite Hab in Ha. congruence.
Qed.

Lemma u8_of_surj (z : Z) : 0 <= z <= 255 -> exists b, u8_of b = z.
Proof.
  intros Hz. destruct (Byte.of_N (Z.to_N z)) as [y|] eqn:E.
  - exists y. apply Byte.to_of_N in E. unfold u8_of. rewrite E. lia.
  - apply Byte.of_N_None_iff in E. lia.
Qed.

Lemma lor_mul256_small (a b : Z) :
  0 <= a -> 0 <= b < 2 ^ 8 -> Z.lor (a * 2 ^ 8) b = a * 2 ^ 8 + b.
Proof.
  intros Ha Hb.
  assert (Hand : Z.land (a * 2 ^ 8) b = 0).
  { apply Z.bits_inj'. intros n Hn. rewrite Z.land_spec, Z.bits_0.
    destruct (Z.lt_ge_cases n 8) as [Hlt|Hge].
    - rewrite <- Z.shiftl_mul_pow2 by lia.
      rewrite Z.shiftl_spec_low by lia. reflexivity.
    - rewrite <- (Z.mod_small b (2 ^ 8)) by lia.
      rewrite Z.mod_pow2_bits_high by lia. apply andb_false_r. }
  rewrite <- Z.lxor_lor by exact Hand.
  rewrite Z.add_nocarry_lxor by exact Hand. reflexivity.
Qed.

Lemma u16_from_two_bytes_eq (b1 b2 : Byte.byte) :
  V3.u16_from_two_bytes b1 b2 = 256 * u8_of b1 + u8_of b2.
Proof.
  pose proof (u8_of_range b1). pose proof (u8_of_range b2).
  unfold V3.u16_from_two_bytes.
  rewrite Z.shiftl_mul_pow2 by lia.
  change (2 ^ 16 - 1) with (Z.ones 16).
  rewrite Z.land_ones by lia.
  rewrite Z.mod_small by (split; [lia | change (2 ^ 16) with 65536;
                                       change (2 ^ 8) with 256; lia]).
  rewrite lor_mul256_small by (change (2 ^ 8) with 256; lia). lia.
Qed.

(** Decomposition of a 14-byte payload the version-3 decoder accepted. *)
Lemma v3_ok_shape (value : list Byte.byte) (d : V3.SensorDataV3) :
  V3.from_manufacturer_specific_data value = Ret (Ok d) ->
  exists v h t1 t2 p1 p2 x1 x2 y1 y2 z1 z2 b1 b2,
    value = [v; h; t1; t2; p1; p2; x1; x2; y1; y2; z1; z2; b1; b2] /\
    d = {| V3.humidity := u8_of h;
           V3.temperature := V3.u16_from_two_bytes t1 t2;
           V3.pressure := V3.u16_from_two_bytes p1 p2;
           V3.acceleration := V3.AccelerationVectorV3_
                                (V3.i16_from_two_bytes x1 x2)
                                (V3.i16_from_two_bytes y1 y2)
                                (V3.i16_from_two_bytes z1 z2);
           V3.battery_potential := V3.u16_from_two_bytes b1 b2 |}.
Proof.
  unfold V3.from_manufacturer_specific_data.
  destruct (Nat.eqb (length value) 14) eqn:E; [|discriminate].
  apply Nat.eqb_eq in E.
  do 14 (destruct value as [|? value]; [discriminate E|]).
  destruct value; [|discriminate E].
  intros Hd. injection Hd as <-. do 14 eexists. split; reflexivity.
Qed.

(** X1 *)
(** [u16_from_two_bytes(b1, b2)] is the big-endian value [256 * b1 + b2],
    always within the [u16] range. *)
Theorem u16_from_two_bytes_big_endian (b1 b2 : Byte.byte) :
  V3.u16_from_two_bytes b1 b2 = 256 * u8_of b1 + u8_of b2 /\
  0 <= V3.u16_from_two_bytes b1 b2 <= 65535.
Proof.
  pose proof (u8_of_range b1). pose proof (u8_of_range b2).
  rewrite u16_from_two_bytes_eq. split; [reflexivity | lia].
Qed.

(** X2 *)
(** [u16_from_two_bytes] is injective: the two bytes are recovered from the
    value. *)
Theorem u16_from_two_bytes_injective (b1 b2 c1 c2 : Byte.byte) :
  V3.u16_from_two_bytes b1 b2 = V3.u16_from_two_bytes c1 c2 ->
  b1 = c1 /\ b2 = c2.
Proof.
  rewrite !u16_from_two_bytes_eq. intros Heq.
  pose proof (u8_of_range b1). pose proof (u8_of_range b2).
  pose proof (u8_of_range c1). pose proof (u8_of_range c2).
  split; apply u8_of_inj; lia.
Qed.

Lemma u16_from_two_bytes_injective_witness :
  V3.u16_from_two_bytes x01 x45 = V3.u16_from_two_bytes x01 x45 /\
  (x01 = x01 /\ x45 = x45).
Proof.
  split; [reflexivity|].
  apply u16_from_two_bytes_injective. reflexivity.
Defined.

(** X3 *)
(** Every [u16] value is [u16_from_two_bytes] of some pair of bytes. *)
Theorem u16_from_two_bytes_surjective (v : Z) :
  0 <= v <= 65535 -> exists b1 b2, V3.u16_from_two_bytes b1 b2 = v.
Proof.
  intros Hv.
  pose proof (Z.div_mod v 256 ltac:(lia)) as Hdm.
  pose proof (Z.mod_pos_bound v 256 ltac:(lia)) as Hr.
  destruct (u8_of_surj (v / 256)) as [b1 Hb1]; [lia|].
  destruct (u8_of_surj (v mod 256)) as [b2 Hb2]; [lia|].
  exists b1, b2. rewrite u16_from_two_bytes_eq, Hb1, Hb2. lia.
Qed.

Lemma u16_from_two_bytes_surjective_witness :
  0 <= 63656 <= 65535 /\ exists b1 b2, V3.u16_from_two_bytes b1 b2 = 63656.
Proof.
  split; [lia|]. apply u16_from_two_bytes_surjective. lia.
Defined.

(** X4 *)
(** [i16_from_two_bytes(b1, b2)] is the big-endian two's-complement value:
    [256 * b1 + b2], minus [65536] when the sign bit of [b1] is set; it lies
    in the [i16] range. *)
Theorem i16_from_two_bytes_twos_complement (b1 b2 : Byte.byte) :
  V3.i16_from_two_bytes b1 b2
  = 256 * u8_of b1 + u8_of b2 - (if u8_of b1 >=? 128 then 65536 else 0) /\
  -32768 <= V3.i16_from_two_bytes b1 b2 <= 32767.
Proof.
  pose proof (u8_of_range b1). pose proof (u8_of_range b2).
  unfold V3.i16_from_two_bytes, u16_as_i16. rewrite u16_from_two_bytes_eq.
  destruct (Z.geb_spec (256 * u8_of b1 + u8_of b2) (2 ^ 15));
  destruct (Z.geb_spec (u8_of b1) 128); lia.
Qed.

(** X5 *)
(** [i16_from_two_bytes] is a bijection from byte pairs onto the [i16]
    range: distinct byte pairs give distinct values, and every [i16] value is
    reached. *)
Theorem i16_from_two_bytes_bijective :
  (forall b1 b2 c1 c2,
     V3.i16_from_two_bytes b1 b2 = V3.i16_from_two_bytes c1 c2 ->
     b1 = c1 /\ b2 = c2) /\
  (forall v, -32768 <= v <= 32767 ->
     exists b1 b2, V3.i16_from_two_bytes b1 b2 = v).
Proof.
  split.
  - intros b1 b2 c1 c2 Heq.
    destruct (i16_from_two_bytes_twos_complement b1 b2) as [E1 _].
    destruct (i16_from_two_bytes_twos_complement c1 c2) as [E2 _].
    rewrite E1, E2 in Heq.
    pose proof (u8_of_range b1). pose proof (u8_of_range b2).
    pose proof (u8_of_range c1). pose proof (u8_of_range c2).
    destruct (Z.geb_spec (u8_of b1) 128); destruct (Z.geb_spec (u8_of c1) 128);
      split; apply u8_of_inj; lia.
  - intros v Hv.
    destruct (u16_from_two_bytes_surjective (if v <? 0 then v + 65536 else v))
      as [b1 [b2 Hb]]; [destruct (Z.ltb_spec v 0); lia|].
    exists b1, b2. unfold V3.i16_from_two_bytes, u16_as_i16. rewrite Hb.
    destruct (Z.ltb_spec v 0);
      match goal with |- context [?a >=? ?b] => destruct (Z.geb_spec a b) end;
      lia.
Qed.

(** X6 *)
(** On a 14-byte payload the version-3 decoder reads humidity from byte 1,
    and big-endian 16-bit fields: temperature from bytes 2-3, pressure from
    4-5, the three signed acceleration components from 6-7, 8-9 and 10-11,
    and the battery potential from 12-13. *)
Theorem v3_field_layout (v h t1 t2 p1 p2 x1 x2 y1 y2 z1 z2 b1 b2 : Byte.byte) :
  V3.from_manufacturer_specific_data
    [v; h; t1; t2; p1; p2; x1; x2; y1; y2; z1; z2; b1; b2]
  = Ret (Ok {| V3.humidity := u8_of h;
               V3.temperature := 256 * u8_of t1 + u8_of t2;
               V3.pressure := 256 * u8_of p1 + u8_of p2;
               V3.acceleration := V3.AccelerationVectorV3_
                                    (V3.i16_from_two_bytes x1 x2)
                                    (V3.i16_from_two_bytes y1 y2)
                                    (V3.i16_from_two_bytes z1 z2);
               V3.battery_potential := 256 * u8_of b1 + u8_of b2 |}).
Proof.
  cbn -[V3.u16_from_two_bytes V3.i16_from_two_bytes u8_of].
  rewrite !u16_from_two_bytes_eq. reflexivity.
Qed.

(** X7 *)
(** The version-3 decoder never looks at byte 0 (the version tag): two
    payloads that differ only there decode alike. *)
Theorem v3_ignores_version_byte (v v' : Byte.byte) (rest : list Byte.byte) :
  V3.from_manufacturer_specific_data (v :: rest)
  = V3.from_manufacturer_specific_data (v' :: rest).
Proof. reflexivity. Qed.

(** X8 *)
(** The version-3 decoder never panics: its slice indexing is always in
    bounds. *)
Theorem v3_never_panics (value : list Byte.byte) :
  V3.from_manufacturer_specific_data value <> Panic.
Proof.
  unfold V3.from_manufacturer_specific_data.
  destruct (Nat.eqb (length value) 14) eqn:E; [|discriminate].
  apply Nat.eqb_eq in E.
  do 14 (destruct value as [|? value]; [discriminate E|]).
  destruct value; [discriminate | discriminate E].
Qed.

(** X9 *)
(** Every record the version-3 decoder returns has humidity in [0, 255],
    temperature, pressure and battery potential in [0, 65535], and
    acceleration components in [-32768, 32767]. *)
Theorem v3_fields_in_range (value : list Byte.byte) (d : V3.SensorDataV3) :
  V3.from_manufacturer_specific_data value = Ret (Ok d) ->
  0 <= V3.humidity d <= 255 /\
  0 <= V3.temperature d <= 65535 /\
  0 <= V3.pressure d <= 65535 /\
  0 <= V3.battery_potential d <= 65535 /\
  (match V3.acceleration d with
   | V3.AccelerationVectorV3_ x y z =>
       -32768 <= x <= 32767 /\ -32768 <= y <= 32767 /\ -32768 <= z <= 32767
   end).
Proof.
  intros Hd.
  destruct (v3_ok_shape value d Hd)
    as (v & h & t1 & t2 & p1 & p2 & x1 & x2 & y1 & y2 & z1 & z2 & b1 & b2
        & _ & ->).
  cbn [V3.humidity V3.temperature V3.pressure V3.battery_potential
       V3.acceleration].
  pose proof (u8_of_range h).
  destruct (u16_from_two_bytes_big_endian t1 t2) as [_ Ht].
  destruct (u16_from_two_bytes_big_endian p1 p2) as [_ Hp].
  destruct (u16_from_two_bytes_big_endian b1 b2) as [_ Hb].
  destruct (i16_from_two_bytes_twos_complement x1 x2) as [_ Hx].
  destruct (i16_from_two_bytes_twos_complement y1 y2) as [_ Hy].
  destruct (i16_from_two_bytes_twos_complement z1 z2) as [_ Hz].
  repeat split; lia.
Qed.

Lemma v3_fields_in_range_witness :
  V3.from_manufacturer_specific_data example_payload = Ret (Ok example_v3) /\
  (0 <= V3.humidity example_v3 <= 255 /\
   0 <= V3.temperature example_v3 <= 65535 /\
   0 <= V3.pressure example_v3 <= 65535 /\
   0 <= V3.battery_potential example_v3 <= 65535 /\
   (match V3.acceleration example_v3 with
    | V3.AccelerationVectorV3_ x y z =>
        -32768 <= x <= 32767 /\ -32768 <= y <= 32767 /\ -32768 <= z <= 32767
    end)).
Proof.
  split; [reflexivity|].
  apply (v3_fields_in_range example_payload). reflexivity.
Defined.

(** X10 *)
(** The version-3 decoder loses nothing but the version byte: two accepted
    payloads that decode to the same record agree on bytes 1 to 13. *)
Theorem v3_decode_injective (v v' : Byte.byte) (rest rest' : list Byte.byte)
    (d : V3.SensorDataV3) :
  V3.from_manufacturer_specific_data (v :: rest) = Ret (Ok d) ->
  V3.from_manufacturer_specific_data (v' :: rest') = Ret (Ok d) ->
  rest = rest'.
Proof.
  intros H1 H2.
  destruct (v3_ok_shape _ d H1)
    as (a & h & t1 & t2 & p1 & p2 & x1 & x2 & y1 & y2 & z1 & z2 & b1 & b2
        & E1 & ->).
  destruct (v3_ok_shape _ _ H2)
    as (a' & h' & t1' & t2' & p1' & p2' & x1' & x2' & y1' & y2' & z1' & z2'
        & b1' & b2' & E2 & Hd).
  injection E1 as _ ->. injection E2 as _ ->.
  injection Hd as Hh Ht Hp Hx Hy Hz Hb.
  apply u8_of_inj in Hh.
  apply u16_from_two_bytes_injective in Ht, Hp, Hb.
  destruct i16_from_two_bytes_bijective as [Hinj _].
  apply Hinj in Hx, Hy, Hz.
  intuition congruence.
Qed.

Lemma v3_decode_injective_witness :
  V3.from_manufacturer_specific_data example_payload = Ret (Ok example_v3) /\
  V3.from_manufacturer_specific_data (x05 :: tl example_payload)
  = Ret (Ok example_v3) /\
  tl example_payload = tl example_payload.
Proof.
  split; [reflexivity|]. split; [reflexivity|].
  apply (v3_decode_injective x03 x05 _ _ example_v3); reflexivity.
Defined.

Lemma temperature_as_millicelsius_some {A : Type} `{Temperature A}
    (b : bool) (x : A) (t : Z) :
  temperature_as_millikelvins x = Some t ->
  temperature_as_millicelsius b x
  = (r <- i32_sub b (u32_as_i32 t) 2731500 ;; Ret (Some r)).
Proof. intros Hx. unfold temperature_as_millicelsius. rewrite Hx. reflexivity. Qed.

(** X11 *)
(** With overflow checks on, the conversion of a present [u32] reading [t]
    panics exactly when [2^31 <= t < 2^31 + 2731500]: the cast [t as i32]
    turns such a reading into a value that the subtraction of 2731500 takes
    below [i32::MIN]. *)
Theorem temperature_debug_panic_window {A : Type} `{Temperature A}
    (x : A) (t : Z) :
  temperature_as_millikelvins x = Some t ->
  0 <= t < 2 ^ 32 ->
  (temperature_as_millicelsius true x = Panic <->
   2 ^ 31 <= t < 2 ^ 31 + 2731500).
Proof.
  intros Hx Ht. rewrite (temperature_as_millicelsius_some true x t Hx).
  unfold i32_sub, in_i32, u32_as_i32.
  destruct (Z.geb_spec t (2 ^ 31));
  [destruct (Z.leb_spec (- 2 ^ 31) (t - 2 ^ 32 - 2731500))
  |destruct (Z.leb_spec (- 2 ^ 31) (t - 2731500))];
  cbn [andb];
  try (destruct (Z.ltb_spec (t - 2 ^ 32 - 2731500) (2 ^ 31)));
  try (destruct (Z.ltb_spec (t - 2731500) (2 ^ 31)));
  cbn [bind]; split; intros; try discriminate; try reflexivity; lia.
Qed.

Lemma temperature_debug_panic_window_witness :
  (temperature_as_millikelvins {| value_temperature := Some (2 ^ 31 + 5) |}
   = Some (2 ^ 31 + 5) /\ 0 <= 2 ^ 31 + 5 < 2 ^ 32) /\
  (temperature_as_millicelsius true {| value_temperature := Some (2 ^ 31 + 5) |}
   = Panic <-> 2 ^ 31 <= 2 ^ 31 + 5 < 2 ^ 31 + 2731500).
Proof.
  split; [split; [reflexivity | lia]|].
  apply temperature_debug_panic_window; [reflexivity | lia].
Defined.

(** X12 *)
(** Without overflow checks, a present [u32] reading [t] always gives a
    present value: [t - 2731500] for [t < 2^31 + 2731500], and
    [t - 2731500 - 2^32] (the wrapped [i32] value) above. *)
Theorem temperature_release_value {A : Type} `{Temperature A}
    (x : A) (t : Z) :
  temperature_as_millikelvins x = Some t ->
  0 <= t < 2 ^ 32 ->
  temperature_as_millicelsius false x
  = Ret (Some (if t <? 2 ^ 31 + 2731500 then t - 2731500
               else t - 2731500 - 2 ^ 32)).
Proof.
  intros Hx Ht. rewrite (temperature_as_millicelsius_some false x t Hx).
  unfold i32_sub, in_i32, u32_as_i32, wrap_i32.
  destruct (Z.ltb_spec t (2 ^ 31 + 2731500));
  destruct (Z.geb_spec t (2 ^ 31)).
  - replace (- 2 ^ 31 <=? t - 2 ^ 32 - 2731500) with false
      by (symmetry; apply Z.leb_gt; lia).
    cbn [andb bind]. do 2 f_equal.
    replace (t - 2 ^ 32 - 2731500 + 2 ^ 31)
      with ((t - 2731500 + 2 ^ 31) + (-1) * 2 ^ 32) by lia.
    rewrite Z.mod_add by lia. rewrite Z.mod_small by lia. lia.
  - replace (- 2 ^ 31 <=? t - 2731500) with true
      by (symmetry; apply Z.leb_le; lia).
    replace (t - 2731500 <? 2 ^ 31) with true
      by (symmetry; apply Z.ltb_lt; lia).
    reflexivity.
  - replace (- 2 ^ 31 <=? t - 2 ^ 32 - 2731500) with true
      by (symmetry; apply Z.leb_le; lia).
    replace (t - 2 ^ 32 - 2731500 <? 2 ^ 31) with true
      by (symmetry; apply Z.ltb_lt; lia).
    cbn [andb bind]. do 2 f_equal. lia.
  - lia.
Qed.

Lemma temperature_release_value_witness :
  (temperature_as_millikelvins {| value_temperature := Some (2 ^ 31) |}
   = Some (2 ^ 31) /\ 0 <= 2 ^ 31 < 2 ^ 32) /\
  temperature_as_millicelsius false {| value_temperature := Some (2 ^ 31) |}
  = Ret (Some (if 2 ^ 31 <? 2 ^ 31 + 2731500 then 2 ^ 31 - 2731500
               else 2 ^ 31 - 2731500 - 2 ^ 32)).
Proof.
  split; [split; [reflexivity | lia]|].
  apply temperature_release_value; [reflexivity | lia].
Defined.

(** X13 *)
(** Whenever the conversion returns in a build with overflow checks, a build
    without them returns the same value. *)
Theorem temperature_debug_release_agree {A : Type} `{Temperature A}
    (x : A) (r : option Z) :
  temperature_as_millicelsius true x = Ret r ->
  temperature_as_millicelsius false x = Ret r.
Proof.
  unfold temperature_as_millicelsius.
  destruct (temperature_as_millikelvins x); [|tauto].
  unfold i32_sub. destruct (in_i32 _); cbn [bind]; [tauto | discriminate].
Qed.

Lemma temperature_debug_release_agree_witness :
  temperature_as_millicelsius true {| value_temperature := Some 2630800 |}
  = Ret (Some (-100700)) /\
  temperature_as_millicelsius false {| value_temperature := Some 2630800 |}
  = Ret (Some (-100700)).
Proof.
  split; [reflexivity|].
  apply temperature_debug_release_agree. reflexivity.
Defined.
